(** * featureScaling.py: the scaling constants and the policy table read from them

    The module [featureScaling.py] is a report: documentation strings and six
    module-level assignments, one per feature group.  Five assignments bind a
    name to a recipe string ("log1p + RobustScaler"), one binds a name to a
    dictionary from column name to scaler name.

    The development has two layers.
    - [featureScaling]: the module as it is written, a sequence of assignment
      statements run on the module's namespace.
    - [Policy]: the lookup interface of the specification ([recipe_for],
      [all_groups]) and the vocabulary it uses for groups and steps, over the
      table the module's namespace gives. *)

From Stdlib Require Import Ascii String List.
From stdpp Require Import base option strings list gmap fin_maps.

Open Scope string_scope.

(** ** The module as written *)

Module featureScaling.

(** A Python dictionary display [{k1: v1, k2: v2}] is evaluated left to
    right, each pair stored in turn: a key written twice keeps the last
    value. *)
Definition py_dict {V : Type} (items : list (string * V)) : gmap string V :=
  foldl (fun d kv => <[kv.1 := kv.2]> d) ∅ items.

(** The values the module binds: a string, or a dictionary of strings.
    Strings are the bytes of the source file (UTF-8): the dash of
    "Yeo–Johnson" is an en dash, three bytes long. *)
Inductive value : Type :=
| Str (s : string)
| Dict (d : gmap string string).

Definition PRESSURE_SCALING : string := "log1p + RobustScaler".

Definition ADSORPTION_SCALING : string := "StandardScaler".

Definition PHYSICAL_SCALING_items : list (string * string) :=
  [ ("Temperature", "StandardScaler");
    ("Depth", "MinMaxScaler") ].

Definition PHYSICAL_SCALING : gmap string string :=
  py_dict PHYSICAL_SCALING_items.

Definition PROXIMATE_SCALING : string := "MinMaxScaler".

Definition MACERAL_SCALING : string :=
  "PowerTransformer (Yeo–Johnson) + RobustScaler".

Definition CORRELATION_SCALING : string := "MinMaxScaler".

(** A statement of the module body.  The documentation strings before,
    between and after the assignments are expression statements: they bind
    no name of the table. *)
Inductive stmt : Type :=
| Assign (name : string) (v : value)
| Doc.

Definition module_body : list stmt :=
  [ Doc;
    Doc; Assign "PRESSURE_SCALING" (Str PRESSURE_SCALING);
    Doc; Assign "ADSORPTION_SCALING" (Str ADSORPTION_SCALING);
    Doc; Assign "PHYSICAL_SCALING" (Dict PHYSICAL_SCALING);
    Doc; Assign "PROXIMATE_SCALING" (Str PROXIMATE_SCALING);
    Doc; Assign "MACERAL_SCALING" (Str MACERAL_SCALING);
    Doc; Assign "CORRELATION_SCALING" (Str CORRELATION_SCALING);
    Doc ].

(** Running a statement on the namespace of the names the module assigns.
    The name [__doc__], which Python binds to the leading documentation
    string, is not part of it: a documentation string leaves this namespace
    as it is. *)
Definition exec (globals : gmap string value) (s : stmt) : gmap string value :=
  match s with
  | Assign name v => <[name := v]> globals
  | Doc => globals
  end.

Definition run (body : list stmt) : gmap string value :=
  foldl exec ∅ body.

(** The names the body assigns, in order, with repetitions. *)
Fixpoint assigned (body : list stmt) : list string :=
  match body with
  | [] => []
  | Assign name _ :: rest => name :: assigned rest
  | Doc :: rest => assigned rest
  end.

Definition globals : gmap string value := run module_body.

End featureScaling.

(** ** The policy table and its lookup interface *)

Module Policy.

Import featureScaling.

(** Modelled from the spec: the module writes a recipe as one string, its
    steps joined by " + " ("Apply ...", then "Follow with ..." in the
    report); the specification's recipe is the ordered list of those steps.
    [split_on sep s] cuts [s] at every occurrence of [sep], left to right,
    as Python's [s.split(sep)] does for a non-empty [sep]. *)
Fixpoint split_from (sep : string) (skip : nat) (cur : string) (s : string)
  : list string :=
  match s with
  | EmptyString => [cur]
  | String c rest =>
      match skip with
      | S k => split_from sep k cur rest
      | O =>
          if String.prefix sep s
          then cur :: split_from sep (String.length sep - 1) "" rest
          else split_from sep 0 (cur +:+ String c "") rest
      end
  end.

Definition split_on (sep s : string) : list string := split_from sep 0 "" s.

(** Modelled from the spec: the closed set of step names (its glossary and
    serialised example), and the scaler label of the module each one
    stands for.  A label outside the set names no step. *)
Definition step_labels : list (string * string) :=
  [ ("log1p", "log1p");
    ("PowerTransformer (Yeo–Johnson)", "yeo_johnson");
    ("RobustScaler", "robust_scale");
    ("StandardScaler", "standard_scale");
    ("MinMaxScaler", "minmax_scale") ].

Fixpoint assoc (key : string) (l : list (string * string)) : option string :=
  match l with
  | [] => None
  | (k, v) :: rest => if String.eqb key k then Some v else assoc key rest
  end.

Definition step_name (label : string) : option string := assoc label step_labels.

Definition steps_of (recipe : string) : option (list string) :=
  mapM step_name (split_on " + " recipe).

(** An entry of a table.  [Steps] is the recipe of the specification, the
    ordered sequence of step names, and the reading of a recipe string of
    the module.  [PerColumn] is not a recipe of the specification: it embeds
    the dictionary of the module, which gives each column of a group a
    recipe of its own. *)
Inductive Recipe : Type :=
| Steps (steps : list string)
| PerColumn (columns : gmap string (list string)).

Definition column_recipe (kv : string * string) : option (string * list string) :=
  steps ← steps_of kv.2; Some (kv.1, steps).

Definition recipe_of (v : value) : option Recipe :=
  match v with
  | Str s => Steps <$> steps_of s
  | Dict d => (fun cols => PerColumn (list_to_map cols)) <$> mapM column_recipe (map_to_list d)
  end.

(** Modelled from the spec: the group name of each constant of the module.
    Five names are those of the specification's serialised table; the
    constant of section 3 of the report ("PHYSICAL CONTROL VARIABLES") has
    no name there and is called after its heading, as the others are. *)
Definition group_names : list (string * string) :=
  [ ("PRESSURE_SCALING", "pressure");
    ("ADSORPTION_SCALING", "adsorption_volume");
    ("PHYSICAL_SCALING", "physical_control");
    ("PROXIMATE_SCALING", "proximate_analysis");
    ("MACERAL_SCALING", "maceral_composition");
    ("CORRELATION_SCALING", "correlation_metric") ].

Definition group_name (constant : string) : option string := assoc constant group_names.

Definition entry_of (binding : string * value) : option (string * Recipe) :=
  name ← group_name binding.1; r ← recipe_of binding.2; Some (name, r).

(** The table a namespace configures: every binding of the namespace, under
    its group name; [None] when a binding is not a group or not a recipe. *)
Definition table_of (g : gmap string value) : option (gmap string Recipe) :=
  list_to_map <$> mapM entry_of (map_to_list g).

Definition policy_table : gmap string Recipe := default ∅ (table_of globals).

(** Modelled from the spec: the lookup interface (section 4.1), absent from
    the module.  [recipe_for] returns the recipe of a known group and fails
    with [UnknownGroupError] otherwise; [all_groups] is the set of
    configured group names. *)
Inductive Error : Type := UnknownGroupError.

Definition recipe_for (table : gmap string Recipe) (group_name : string)
  : Error + Recipe :=
  match table !! group_name with
  | Some r => inr r
  | None => inl UnknownGroupError
  end.

Definition all_groups (table : gmap string Recipe) : gset string := dom table.

(** Modelled from the spec: the serialised table of section 6. *)
Definition spec_table : gmap string Recipe :=
  py_dict
    [ ("pressure", Steps ["log1p"; "robust_scale"]);
      ("adsorption_volume", Steps ["standard_scale"]);
      ("proximate_analysis", Steps ["minmax_scale"]);
      ("maceral_composition", Steps ["yeo_johnson"; "robust_scale"]);
      ("correlation_metric", Steps ["minmax_scale"]) ].

(** Modelled from the spec: the two-group table of the concrete scenario
    (section 8). *)
Definition scenario_table : gmap string Recipe :=
  py_dict
    [ ("pressure", Steps ["log1p"; "robust_scale"]);
      ("proximate_analysis", Steps ["minmax_scale"]) ].

(** The per-column recipes of the physical-control group. *)
Definition physical_columns : gmap string (list string) :=
  py_dict
    [ ("Temperature", ["standard_scale"]);
      ("Depth", ["minmax_scale"]) ].

(** The configured table, entry by entry. *)
Definition policy_entries : list (string * Recipe) :=
  [ ("pressure", Steps ["log1p"; "robust_scale"]);
    ("adsorption_volume", Steps ["standard_scale"]);
    ("physical_control", PerColumn physical_columns);
    ("proximate_analysis", Steps ["minmax_scale"]);
    ("maceral_composition", Steps ["yeo_johnson"; "robust_scale"]);
    ("correlation_metric", Steps ["minmax_scale"]) ].


(** The distinct recipes an entry of the table holds: the sequence itself,
    or the sequences of its columns. *)
Definition recipes (r : Recipe) : list (list string) :=
  match r with
  | Steps steps => [steps]
  | PerColumn columns => remove_dups (map_to_list columns).*2
  end.

(** A sequence of steps the table configures, for a group or for a column
    of a group. *)
Definition configured_in (table : gmap string Recipe) (steps : list string) : Prop :=
  (∃ g, table !! g = Some (Steps steps))
  ∨ (∃ g columns c, table !! g = Some (PerColumn columns) ∧ columns !! c = Some steps).

(** Modelled from the spec: the skew-reducing transforms of its glossary
    (log1p, Yeo-Johnson), and [precedes a b steps]: every occurrence of [a]
    in [steps] comes before every occurrence of [b]. *)
Definition skew_reducing (step : string) : Prop :=
  step = "log1p" ∨ step = "yeo_johnson".

Definition precedes (a b : string) (steps : list string) : Prop :=
  ∀ i j : nat, steps !! i = Some a → steps !! j = Some b → i < j.

End Policy.

(** ** The documentation strings of the module *)

Module Report.

Import featureScaling.

(** The documentation string above a constant: the bullets (the text after
    "- ") of its "Features:" and "Scaling Decision:" paragraphs, and the name
    of the constant assigned below it. *)
Record GroupDoc : Type := {
  features : list string;
  scaling_decision : list string;
  constant : string }.

Definition report : list GroupDoc :=
  [ {| features :=
         [ "Pressure (kPa)";
           "Max. EXP Pressure (kPa)";
           "Langmuir Pressure Constant, PL (kPa)" ];
       scaling_decision :=
         [ "Apply logarithmic transformation (log1p)";
           "Follow with RobustScaler" ];
       constant := "PRESSURE_SCALING" |};
    {| features :=
         [ "EXP_ADS (mL/g)";
           "Langmuir_ADS (mL/g)";
           "Langmuir Volume Constant, VL (mL/g)" ];
       scaling_decision := [ "Apply StandardScaler" ];
       constant := "ADSORPTION_SCALING" |};
    {| features := [ "Temperature (°C)"; "Depth (m)" ];
       scaling_decision :=
         [ "Temperature → StandardScaler";
           "Depth → MinMaxScaler (or StandardScaler depending on model)" ];
       constant := "PHYSICAL_SCALING" |};
    {| features := [ "Moisture (%)"; "VM (%)"; "Ash (%)"; "FC (%)" ];
       scaling_decision := [ "Apply MinMaxScaler" ];
       constant := "PROXIMATE_SCALING" |};
    {| features :=
         [ "Vitrinite (%)";
           "Semi-vitrinite (%)";
           "Liptinite (%)";
           "Inertinite (%)";
           "Mineral matter (%)" ];
       scaling_decision :=
         [ "Apply PowerTransformer (Yeo–Johnson)";
           "Follow with RobustScaler" ];
       constant := "MACERAL_SCALING" |};
    {| features := [ "Correlation coefficient (R²)" ];
       scaling_decision := [ "MinMaxScaler (or no scaling for tree-based models)" ];
       constant := "CORRELATION_SCALING" |} ].

(** The scaler labels the constants are written with. *)
Definition scaler_labels : list string :=
  [ "log1p"; "PowerTransformer (Yeo–Johnson)";
    "RobustScaler"; "StandardScaler"; "MinMaxScaler" ].

(** [contains sub s]: [sub] occurs in [s] (Python's [sub in s]). *)
Fixpoint contains (sub s : string) : bool :=
  String.prefix sub s ||
  match s with
  | EmptyString => false
  | String _ rest => contains sub rest
  end.

(** The column a feature bullet names: the text before its unit, " (". *)
Definition column_name (feature : string) : string :=
  hd feature (Policy.split_on " (" feature).

(** The recipe strings a value holds: the string itself, or the values of
    the dictionary. *)
Definition recipe_strings (v : value) : list string :=
  match v with
  | Str s => [s]
  | Dict d => (map_to_list d).*2
  end.

(** The column and the scaler a bullet "column → scaler ..." decides: the
    text before the arrow, and the first word after it. *)
Definition column_decision (bullet : string) : option (string * string) :=
  match Policy.split_on " → " bullet with
  | [column; named] => Some (column, hd "" (Policy.split_on " " named))
  | _ => None
  end.

(** A constant follows the decision bullets above it.  A recipe string has
    one step for each bullet, in order; the step is a scaler label, and the
    only scaler label the bullet contains.  A dictionary is the one the
    bullets spell out: each bullet gives a column and, as its first word
    after the arrow, the scaler of that column, a scaler label. *)
Definition follows_decision (v : value) (bullets : list string) : Prop :=
  match v with
  | Str recipe =>
      Forall2
        (fun step bullet =>
           step ∈ scaler_labels
           ∧ ∀ label, label ∈ scaler_labels →
               (contains label bullet = true ↔ label = step))
        (Policy.split_on " + " recipe) bullets
  | Dict d =>
      ∃ items,
        mapM column_decision bullets = Some items
        ∧ NoDup items.*1
        ∧ Forall (fun item => item.2 ∈ scaler_labels) items
        ∧ d = py_dict items
  end.

End Report.

Import featureScaling Policy Report.

(** ** The namespace a module body builds *)

Section Namespace.

Implicit Types (body : list stmt) (g : gmap string value).

Lemma run_untouched body g name :
  name ∉ assigned body → foldl exec g body !! name = g !! name.
Proof.
  revert g. induction body as [|[n v|] rest IH]; intros g Hn; simpl in *.
  - reflexivity.
  - apply not_elem_of_cons in Hn as [Hne Hrest].
    rewrite IH by exact Hrest. apply lookup_insert_ne. congruence.
  - apply IH, Hn.
Qed.

Lemma run_dom body g :
  dom (foldl exec g body) = dom g ∪ list_to_set (assigned body).
Proof.
  revert g. induction body as [|[n v|] rest IH]; intros g; simpl.
  - symmetry. apply union_empty_r_L.
  - rewrite IH, dom_insert_L, (comm_L (∪) {[n]} (dom g)).
    symmetry. apply (assoc_L (∪)).
  - apply IH.
Qed.

(** When no name is assigned twice, the namespace holds for each name the
    one value written for it. *)
Lemma run_assigned body g name v :
  NoDup (assigned body) → Assign name v ∈ body →
  foldl exec g body !! name = Some v.
Proof.
  revert g. induction body as [|s rest IH]; intros g Hnd Hin.
  - inversion Hin.
  - apply elem_of_cons in Hin as [<-|Hin]; simpl in *.
    + apply NoDup_cons in Hnd as [Hfresh _].
      rewrite run_untouched by exact Hfresh. apply lookup_insert_eq.
    + destruct s as [n w|]; simpl in *.
      * apply NoDup_cons in Hnd as [_ Hnd]. apply IH; assumption.
      * apply IH; assumption.
Qed.

(** A dictionary display is the map of its pairs read from the last to the
    first: the last value written for a key is the one kept. *)
Lemma py_dict_list_to_map {V : Type} (items : list (string * V)) :
  py_dict items = list_to_map (reverse items).
Proof.
  unfold py_dict. rewrite <- (reverse_involutive items) at 1.
  generalize (reverse items) as l. intros l.
  induction l as [|kv l IH]; simpl.
  - reflexivity.
  - rewrite reverse_cons, foldl_app. simpl. rewrite IH. reflexivity.
Qed.

Lemma py_dict_lookup {V : Type} (items : list (string * V)) k v :
  NoDup items.*1 → py_dict items !! k = Some v ↔ (k, v) ∈ items.
Proof.
  intros Hnd. rewrite py_dict_list_to_map, <- elem_of_list_to_map.
  - apply elem_of_reverse.
  - rewrite fmap_reverse, reverse_Permutation. exact Hnd.
Qed.

End Namespace.

(** Distinctness of the keys of a literal list, by evaluation. *)
Ltac keys_NoDup := apply (bool_decide_unpack _); vm_compute; exact I.

(** ** The lookup interface on any table *)

Section Lookup.

Implicit Types (table : gmap string Recipe) (name : string).


Lemma recipe_for_unknown table name :
  table !! name = None → recipe_for table name = inl UnknownGroupError.
Proof. intros H. unfold recipe_for. rewrite H. reflexivity. Qed.

Lemma recipe_for_inr table name r :
  recipe_for table name = inr r ↔ table !! name = Some r.
Proof.
  unfold recipe_for. destruct (table !! name) as [r'|]; split; intros H;
    try discriminate; congruence.
Qed.

Lemma recipe_for_inl table name e :
  recipe_for table name = inl e ↔ name ∉ all_groups table.
Proof.
  unfold recipe_for, all_groups. rewrite not_elem_of_dom.
  destruct (table !! name) as [r|]; destruct e; split; intros H;
    try discriminate; reflexivity.
Qed.

End Lookup.

(** ** The configured table *)

Lemma table_of_globals : table_of globals = Some policy_table.
Proof. vm_compute. reflexivity. Qed.

Lemma policy_table_lookup name r :
  policy_table !! name = Some r ↔ (name, r) ∈ policy_entries.
Proof.
  assert (policy_table = list_to_map policy_entries) as -> by (vm_compute; reflexivity).
  symmetry. apply elem_of_list_to_map.
  unfold policy_entries; simpl. repeat (apply NoDup_cons; split); try apply NoDup_nil_2;
    rewrite ?elem_of_cons, elem_of_nil; intros H; repeat destruct H as [H|H];
    first [discriminate H | exact H].
Qed.

Lemma physical_columns_lookup c steps :
  physical_columns !! c = Some steps ↔
  (c, steps) ∈ [("Temperature", ["standard_scale"]); ("Depth", ["minmax_scale"])].
Proof. apply py_dict_lookup. keys_NoDup. Qed.

Lemma PHYSICAL_SCALING_lookup column scaler :
  PHYSICAL_SCALING !! column = Some scaler ↔ (column, scaler) ∈ PHYSICAL_SCALING_items.
Proof. apply py_dict_lookup. keys_NoDup. Qed.

(** Case analysis on an entry of the configured table. *)
Ltac table_cases H :=
  apply policy_table_lookup in H; unfold policy_entries in H;
  repeat (apply elem_of_cons in H as [H|H]);
  [ inversion H; subst; clear H .. | apply elem_of_nil in H; destruct H ].

(** Closing a decidable goal by evaluation. *)
Ltac by_decision := apply (bool_decide_unpack _); vm_compute; exact I.

Ltac column_cases H :=
  apply physical_columns_lookup in H;
  repeat (apply elem_of_cons in H as [H|H]);
  [ inversion H; subst; clear H .. | apply elem_of_nil in H; destruct H ].

(** ** Lookup: errors and order *)

(** C2: [recipe_for] fails with [UnknownGroupError] exactly when the name is
    not a configured group; a success returns the configured recipe and
    nothing else (no default); [UnknownGroupError] is the only error; and
    "nonexistent_group" is not a group of the configured table, so its lookup
    fails. *)
Theorem recipe_for_UnknownGroupError
    (table : gmap string Recipe) (name : string) (r : Recipe) (e : Error) :
  (recipe_for table name = inl UnknownGroupError ↔ name ∉ all_groups table)
  ∧ (recipe_for table name = inr r ↔ table !! name = Some r)
  ∧ (recipe_for table name = inl e ↔ table !! name = None)
  ∧ e = UnknownGroupError
  ∧ ("nonexistent_group" ∉ all_groups policy_table)
  ∧ recipe_for policy_table "nonexistent_group" = inl UnknownGroupError.
Proof.
  split; [apply recipe_for_inl|].
  split; [apply recipe_for_inr|].
  split; [rewrite recipe_for_inl; apply not_elem_of_dom|].
  split; [destruct e; reflexivity|].
  assert (policy_table !! "nonexistent_group" = None) as Hnone
    by (vm_compute; reflexivity).
  split.
  - apply not_elem_of_dom, Hnone.
  - apply recipe_for_unknown, Hnone.
Qed.

(** C4: the recipe of "pressure" keeps the order of the configured string
    "log1p + RobustScaler": log1p first, the robust rescaling second, and
    not the other way round. *)
Theorem recipe_for_pressure_order :
  globals !! "PRESSURE_SCALING" = Some (Str "log1p + RobustScaler")
  ∧ split_on " + " PRESSURE_SCALING = ["log1p"; "RobustScaler"]
  ∧ recipe_for policy_table "pressure" = inr (Steps ["log1p"; "robust_scale"])
  ∧ recipe_for policy_table "pressure" ≠ inr (Steps ["robust_scale"; "log1p"]).
Proof.
  assert (recipe_for policy_table "pressure" = inr (Steps ["log1p"; "robust_scale"]))
    as Hp by (vm_compute; reflexivity).
  repeat split; try (vm_compute; reflexivity).
  rewrite Hp. intros Heq. inversion Heq.
Qed.

(** C9: on the two-group table of the scenario, [all_groups] is the set of
    the two names and the recipe of "proximate_analysis" is the single step
    "minmax_scale"; the scenario is the configured table cut down to these
    two groups. *)
Theorem scenario_two_groups :
  all_groups scenario_table = {[ "pressure"; "proximate_analysis" ]}
  ∧ recipe_for scenario_table "proximate_analysis" = inr (Steps ["minmax_scale"])
  ∧ recipe_for scenario_table "pressure" = inr (Steps ["log1p"; "robust_scale"])
  ∧ scenario_table =
      filter (fun kv => kv.1 = "pressure" ∨ kv.1 = "proximate_analysis") policy_table
  ∧ steps_of PROXIMATE_SCALING = Some ["minmax_scale"].
Proof. repeat split; vm_compute; reflexivity. Qed.

(** ** The shape of the configured recipes *)

(** C6: a configured recipe of more than one step is a skew-reducing
    transform (log1p or Yeo-Johnson) followed by the robust rescaling: the
    transform stands before the rescaling step, and the rescaling step never
    stands before the transform. *)
Theorem skew_transform_precedes_rescaling (steps : list string) :
  configured_in policy_table steps → 1 < length steps →
  (∃ t, skew_reducing t ∧ steps = [t; "robust_scale"])
  ∧ (∀ t, skew_reducing t → precedes t "robust_scale" steps)
  ∧ (∀ t i j, skew_reducing t →
       steps !! i = Some "robust_scale" → steps !! j = Some t → j < i)
  ∧ (∃ constant recipe label,
       globals !! constant = Some (Str recipe)
       ∧ steps_of recipe = Some steps
       ∧ split_on " + " recipe = [label; "RobustScaler"]
       ∧ (label = "log1p" ∨ label = "PowerTransformer (Yeo–Johnson)")).
Proof.
  intros Hconf Hlen.
  assert (steps = ["log1p"; "robust_scale"] ∨ steps = ["yeo_johnson"; "robust_scale"])
    as Hshape.
  { destruct Hconf as [[g Hg]|(g & columns & c & Hg & Hc)].
    - table_cases Hg; simpl in Hlen; first [lia | by left | by right].
    - table_cases Hg. column_cases Hc; simpl in Hlen; lia. }
  assert (∀ t, skew_reducing t → precedes t "robust_scale" steps) as Hprec.
  { intros t [->| ->] i j Hi Hj; destruct Hshape as [->| ->];
      destruct i as [|[|i]]; destruct j as [|[|j]]; simpl in *;
      try discriminate; lia. }
  split; [|split; [|split]].
  - destruct Hshape as [->| ->]; eexists; (split; [|reflexivity]);
      [by left | by right].
  - exact Hprec.
  - intros t i j Ht Hi Hj. exact (Hprec t Ht j i Hj Hi).
  - destruct Hshape as [->| ->].
    + exists "PRESSURE_SCALING", PRESSURE_SCALING, "log1p".
      repeat split; try (vm_compute; reflexivity). by left.
    + exists "MACERAL_SCALING", MACERAL_SCALING, "PowerTransformer (Yeo–Johnson)".
      repeat split; try (vm_compute; reflexivity). by right.
Qed.

Lemma skew_transform_precedes_rescaling_witness :
  (∃ t, skew_reducing t ∧ ["yeo_johnson"; "robust_scale"] = [t; "robust_scale"])
  ∧ (∀ t, skew_reducing t → precedes t "robust_scale" ["yeo_johnson"; "robust_scale"])
  ∧ (∀ t i j, skew_reducing t →
       ["yeo_johnson"; "robust_scale"] !! i = Some "robust_scale" →
       ["yeo_johnson"; "robust_scale"] !! j = Some t → j < i)
  ∧ (∃ constant recipe label,
       globals !! constant = Some (Str recipe)
       ∧ steps_of recipe = Some ["yeo_johnson"; "robust_scale"]
       ∧ split_on " + " recipe = [label; "RobustScaler"]
       ∧ (label = "log1p" ∨ label = "PowerTransformer (Yeo–Johnson)")).
Proof.
  apply (skew_transform_precedes_rescaling ["yeo_johnson"; "robust_scale"]).
  - left. exists "maceral_composition". vm_compute. reflexivity.
  - simpl. lia.
Defined.

(** ** Every group and its recipe *)




(** ** The table as a function on group names *)

(** C3, as stated, fails at the physical-control group: its entry holds two
    different recipes, one for each of its columns, not one recipe for the
    group. *)
Lemma physical_control_two_recipes :
  globals !! "PHYSICAL_SCALING" = Some (Dict PHYSICAL_SCALING)
  ∧ PHYSICAL_SCALING !! "Temperature" ≠ PHYSICAL_SCALING !! "Depth"
  ∧ policy_table !! "physical_control" = Some (PerColumn physical_columns)
  ∧ physical_columns !! "Temperature" = Some ["standard_scale"]
  ∧ physical_columns !! "Depth" = Some ["minmax_scale"]
  ∧ length (recipes (PerColumn physical_columns)) = 2
  ∧ ¬ (∀ name r, policy_table !! name = Some r → ∃ steps, recipes r = [steps]).
Proof.
  assert (policy_table !! "physical_control" = Some (PerColumn physical_columns))
    as Hphys by (vm_compute; reflexivity).
  assert (length (recipes (PerColumn physical_columns)) = 2)
    as Hlen by (vm_compute; reflexivity).
  split; [vm_compute; reflexivity|].
  split; [vm_compute; discriminate|].
  split; [exact Hphys|].
  split; [vm_compute; reflexivity|].
  split; [vm_compute; reflexivity|].
  split; [exact Hlen|].
  intros Hall. destruct (Hall _ _ Hphys) as [steps Hsteps].
  rewrite Hsteps in Hlen. discriminate Hlen.
Qed.

(** C3, amended: the module assigns no name twice and its namespace binds
    every assigned name to the value written for it; the table has one entry
    for each binding; and every group name has exactly one entry, which for
    every group but the physical-control one is exactly one recipe, and for
    the physical-control group is one recipe for each column (Temperature,
    Depth). *)
Theorem policy_table_total_function :
  NoDup (assigned module_body)
  ∧ dom globals = list_to_set (assigned module_body)
  ∧ (∀ name v, Assign name v ∈ module_body → globals !! name = Some v)
  ∧ table_of globals = Some policy_table
  ∧ size policy_table = length (assigned module_body)
  ∧ ∀ name, name ∈ all_groups policy_table →
      ∃ r, policy_table !! name = Some r
        ∧ (∀ r', (name, r') ∈ policy_entries → r' = r)
        ∧ match r with
          | Steps steps => name ≠ "physical_control" ∧ recipes r = [steps]
          | PerColumn columns =>
              name = "physical_control"
              ∧ dom columns = {[ "Temperature"; "Depth" ]}
              ∧ ∀ c, c ∈ dom columns →
                  ∃ steps, columns !! c = Some steps
                    ∧ ∀ steps', columns !! c = Some steps' → steps' = steps
          end.
Proof.
  assert (NoDup (assigned module_body)) as Hnd by keys_NoDup.
  split; [exact Hnd|].
  split.
  { unfold globals, run. rewrite run_dom, dom_empty_L. apply union_empty_l_L. }
  split.
  { intros name v Hin. apply run_assigned; assumption. }
  split; [exact table_of_globals|].
  split; [vm_compute; reflexivity|].
  intros name Hin. unfold all_groups in Hin. apply elem_of_dom in Hin as [r Hr].
  exists r. split; [exact Hr|].
  split.
  { intros r' Hr'. apply policy_table_lookup in Hr'. congruence. }
  table_cases Hr.
  1,2,4,5,6: split; [discriminate|reflexivity].
  split; [reflexivity|]. split; [vm_compute; reflexivity|].
  intros c Hc. apply elem_of_dom in Hc as [steps Hsteps].
  exists steps. split; [exact Hsteps|]. congruence.
Qed.

Lemma policy_table_total_function_witness :
  ∃ r, policy_table !! "physical_control" = Some r
    ∧ (∀ r', ("physical_control", r') ∈ policy_entries → r' = r)
    ∧ match r with
      | Steps steps => "physical_control" ≠ "physical_control" ∧ recipes r = [steps]
      | PerColumn columns =>
          "physical_control" = "physical_control"
          ∧ dom columns = {[ "Temperature"; "Depth" ]}
          ∧ ∀ c, c ∈ dom columns →
              ∃ steps, columns !! c = Some steps
                ∧ ∀ steps', columns !! c = Some steps' → steps' = steps
      end.
Proof.
  destruct policy_table_total_function as (_ & _ & _ & _ & _ & Hall).
  apply (Hall "physical_control").
  apply elem_of_dom. eexists. vm_compute. reflexivity.
Defined.

(** ** The serialised table *)

(** C5, as stated, fails: the module has a sixth constant,
    [PHYSICAL_SCALING], so the configured table has a sixth group, which the
    five-group mapping does not have. *)
Lemma policy_table_sixth_group :
  globals !! "PHYSICAL_SCALING" = Some (Dict PHYSICAL_SCALING)
  ∧ length (assigned module_body) = 6
  ∧ size policy_table = 6
  ∧ size spec_table = 5
  ∧ "physical_control" ∈ all_groups policy_table
  ∧ ("physical_control" ∉ all_groups spec_table)
  ∧ policy_table ≠ spec_table.
Proof.
  assert (policy_table !! "physical_control" = Some (PerColumn physical_columns))
    as Hphys by (vm_compute; reflexivity).
  assert (spec_table !! "physical_control" = None)
    as Hnone by (vm_compute; reflexivity).
  do 4 (split; [vm_compute; reflexivity|]).
  split; [|split].
  - apply elem_of_dom. eexists. exact Hphys.
  - apply not_elem_of_dom, Hnone.
  - intros Heq. rewrite Heq, Hnone in Hphys. discriminate Hphys.
Qed.

(** C5, amended: the configured table is the five-group mapping of the
    specification together with a sixth group, the physical-control one,
    configured per column: Temperature with the single step
    "standard_scale", Depth with the single step "minmax_scale". *)
Theorem policy_table_serialized :
  policy_table = <["physical_control" := PerColumn physical_columns]> spec_table
  ∧ delete "physical_control" policy_table = spec_table
  ∧ spec_table !! "physical_control" = None
  ∧ physical_columns !! "Temperature" = Some ["standard_scale"]
  ∧ physical_columns !! "Depth" = Some ["minmax_scale"]
  ∧ dom physical_columns = {[ "Temperature"; "Depth" ]}
  ∧ all_groups policy_table =
      {[ "pressure"; "adsorption_volume"; "physical_control";
         "proximate_analysis"; "maceral_composition"; "correlation_metric" ]}.
Proof. repeat split; vm_compute; reflexivity. Qed.

(** ** The physical-control group *)

(** C8: the dictionary of the physical-control group writes each column once
    and gives it one scaler, a single step of the closed set; Depth is given
    "MinMaxScaler" and nothing else. *)
Theorem physical_one_scaler_per_column :
  globals !! "PHYSICAL_SCALING" = Some (Dict PHYSICAL_SCALING)
  ∧ NoDup PHYSICAL_SCALING_items.*1
  ∧ PHYSICAL_SCALING !! "Depth" = Some "MinMaxScaler"
  ∧ steps_of "MinMaxScaler" = Some ["minmax_scale"]
  ∧ ∀ column, column ∈ dom PHYSICAL_SCALING →
      ∃ scaler step,
        PHYSICAL_SCALING !! column = Some scaler
        ∧ (∀ kv, kv ∈ PHYSICAL_SCALING_items → kv.1 = column → kv.2 = scaler)
        ∧ split_on " + " scaler = [scaler]
        ∧ step_name scaler = Some step.
Proof.
  assert (NoDup PHYSICAL_SCALING_items.*1) as Hnd by keys_NoDup.
  split; [vm_compute; reflexivity|].
  split; [exact Hnd|].
  split; [vm_compute; reflexivity|].
  split; [vm_compute; reflexivity|].
  intros column Hin. apply elem_of_dom in Hin as [scaler Hscaler].
  assert (∀ kv, kv ∈ PHYSICAL_SCALING_items → kv.1 = column → kv.2 = scaler) as Hone.
  { intros [k v] Hkv Hk. simpl in *. subst k.
    apply PHYSICAL_SCALING_lookup in Hkv. congruence. }
  pose proof Hscaler as Hcase. apply PHYSICAL_SCALING_lookup in Hcase.
  unfold PHYSICAL_SCALING_items in Hcase.
  repeat (apply elem_of_cons in Hcase as [Hcase|Hcase]);
    [ inversion Hcase; subst; clear Hcase ..
    | apply elem_of_nil in Hcase; destruct Hcase ].
  - exists "StandardScaler", "standard_scale".
    split; [exact Hscaler|]. split; [exact Hone|]. split; vm_compute; reflexivity.
  - exists "MinMaxScaler", "minmax_scale".
    split; [exact Hscaler|]. split; [exact Hone|]. split; vm_compute; reflexivity.
Qed.

Lemma physical_one_scaler_per_column_witness :
  ∃ scaler step,
    PHYSICAL_SCALING !! "Depth" = Some scaler
    ∧ (∀ kv, kv ∈ PHYSICAL_SCALING_items → kv.1 = "Depth" → kv.2 = scaler)
    ∧ split_on " + " scaler = [scaler]
    ∧ step_name scaler = Some step.
Proof.
  destruct physical_one_scaler_per_column as (_ & _ & _ & _ & Hall).
  apply (Hall "Depth").
  apply elem_of_dom. eexists. vm_compute. reflexivity.
Defined.

(** C10: [PHYSICAL_SCALING] is a dictionary with exactly the keys
    "Temperature" and "Depth", the first with "StandardScaler" and the second
    with "MinMaxScaler": two different scalers, each a single step.  The five
    other constants of the module are each one recipe string. *)
Theorem PHYSICAL_SCALING_per_column :
  globals !! "PHYSICAL_SCALING" = Some (Dict PHYSICAL_SCALING)
  ∧ dom PHYSICAL_SCALING = {[ "Temperature"; "Depth" ]}
  ∧ PHYSICAL_SCALING !! "Temperature" = Some "StandardScaler"
  ∧ PHYSICAL_SCALING !! "Depth" = Some "MinMaxScaler"
  ∧ "StandardScaler" ≠ "MinMaxScaler"
  ∧ split_on " + " "StandardScaler" = ["StandardScaler"]
  ∧ split_on " + " "MinMaxScaler" = ["MinMaxScaler"]
  ∧ delete "PHYSICAL_SCALING" globals =
      Str <$> py_dict
        [ ("PRESSURE_SCALING", "log1p + RobustScaler");
          ("ADSORPTION_SCALING", "StandardScaler");
          ("PROXIMATE_SCALING", "MinMaxScaler");
          ("MACERAL_SCALING", "PowerTransformer (Yeo–Johnson) + RobustScaler");
          ("CORRELATION_SCALING", "MinMaxScaler") ].
Proof.
  do 4 (split; [vm_compute; reflexivity|]).
  split; [discriminate|].
  repeat split; vm_compute; reflexivity.
Qed.

(** ** The module beyond the table: recipe strings, order, documentation *)

Lemma globals_lookup name v :
  globals !! name = Some v ↔
  (name, v) ∈ [ ("PRESSURE_SCALING", Str PRESSURE_SCALING);
                ("ADSORPTION_SCALING", Str ADSORPTION_SCALING);
                ("PHYSICAL_SCALING", Dict PHYSICAL_SCALING);
                ("PROXIMATE_SCALING", Str PROXIMATE_SCALING);
                ("MACERAL_SCALING", Str MACERAL_SCALING);
                ("CORRELATION_SCALING", Str CORRELATION_SCALING) ].
Proof.
  assert (globals = list_to_map
    [ ("PRESSURE_SCALING", Str PRESSURE_SCALING);
      ("ADSORPTION_SCALING", Str ADSORPTION_SCALING);
      ("PHYSICAL_SCALING", Dict PHYSICAL_SCALING);
      ("PROXIMATE_SCALING", Str PROXIMATE_SCALING);
      ("MACERAL_SCALING", Str MACERAL_SCALING);
      ("CORRELATION_SCALING", Str CORRELATION_SCALING) ]) as ->
    by (vm_compute; reflexivity).
  symmetry. apply elem_of_list_to_map. keys_NoDup.
Qed.

(** Case analysis on a binding of the module's namespace. *)
Ltac globals_cases H :=
  apply globals_lookup in H;
  repeat (apply elem_of_cons in H as [H|H]);
  [ inversion H; subst; clear H .. | apply elem_of_nil in H; destruct H ].

Lemma recipe_strings_PHYSICAL_SCALING recipe :
  recipe ∈ recipe_strings (Dict PHYSICAL_SCALING) →
  recipe = "StandardScaler" ∨ recipe = "MinMaxScaler".
Proof.
  simpl. intros Hin. apply list_elem_of_fmap in Hin as ([column scaler] & -> & Hin).
  apply elem_of_map_to_list, PHYSICAL_SCALING_lookup in Hin.
  unfold PHYSICAL_SCALING_items in Hin.
  repeat (apply elem_of_cons in Hin as [Hin|Hin]);
    [ inversion Hin; subst; simpl; auto ..
    | apply elem_of_nil in Hin; destruct Hin ].
Qed.

(** X1: every recipe string of the module, the five constants and the two
    values of the dictionary alike, is either a single scaler,
    "StandardScaler" or "MinMaxScaler", or a transform ("log1p" or
    "PowerTransformer (Yeo–Johnson)") followed by "RobustScaler".  So
    "RobustScaler" is never used alone, a transform is never used without
    it, and no recipe has an empty or unknown step. *)
Theorem recipe_strings_shape (name : string) (v : value) (recipe : string) :
  globals !! name = Some v → recipe ∈ recipe_strings v →
  (split_on " + " recipe = [recipe]
   ∧ (recipe = "StandardScaler" ∨ recipe = "MinMaxScaler"))
  ∨ (∃ transform,
       (transform = "log1p" ∨ transform = "PowerTransformer (Yeo–Johnson)")
       ∧ recipe = transform +:+ " + RobustScaler"
       ∧ split_on " + " recipe = [transform; "RobustScaler"]).
Proof.
  intros Hv Hin. globals_cases Hv.
  3: { apply recipe_strings_PHYSICAL_SCALING in Hin as [->| ->];
         left; (split; [vm_compute; reflexivity|]); [by left | by right]. }
  all: apply list_elem_of_singleton in Hin; subst recipe.
  - right. exists "log1p". split; [by left|]. split; vm_compute; reflexivity.
  - left. split; [vm_compute; reflexivity | by left].
  - left. split; [vm_compute; reflexivity | by right].
  - right. exists "PowerTransformer (Yeo–Johnson)". split; [by right|].
    split; vm_compute; reflexivity.
  - left. split; [vm_compute; reflexivity | by right].
Qed.

Lemma recipe_strings_shape_witness :
  (split_on " + " MACERAL_SCALING = [MACERAL_SCALING]
   ∧ (MACERAL_SCALING = "StandardScaler" ∨ MACERAL_SCALING = "MinMaxScaler"))
  ∨ (∃ transform,
       (transform = "log1p" ∨ transform = "PowerTransformer (Yeo–Johnson)")
       ∧ MACERAL_SCALING = transform +:+ " + RobustScaler"
       ∧ split_on " + " MACERAL_SCALING = [transform; "RobustScaler"]).
Proof.
  apply (recipe_strings_shape "MACERAL_SCALING" (Str MACERAL_SCALING)).
  - vm_compute. reflexivity.
  - simpl. apply list_elem_of_here.
Defined.

(** Two statements that do not assign the same name can be run in either
    order. *)
Lemma exec_comm (g : gmap string value) (s1 s2 : stmt) :
  (∀ n1 v1 n2 v2, s1 = Assign n1 v1 → s2 = Assign n2 v2 → n1 ≠ n2) →
  exec (exec g s1) s2 = exec (exec g s2) s1.
Proof.
  intros Hne. destruct s1 as [n1 v1|], s2 as [n2 v2|]; simpl; try reflexivity.
  apply insert_insert_ne. intros Heq. exact (Hne n1 v1 n2 v2 eq_refl eq_refl (eq_sym Heq)).
Qed.

Lemma assigned_Permutation (body body' : list stmt) :
  body ≡ₚ body' → assigned body ≡ₚ assigned body'.
Proof.
  induction 1 as [|s l l' _ IH|s1 s2 l|l1 l2 l3 _ IH1 _ IH2]; simpl.
  - reflexivity.
  - destruct s; [apply perm_skip|]; exact IH.
  - destruct s1, s2; simpl; try reflexivity. apply perm_swap.
  - etransitivity; eassumption.
Qed.

(** A body that assigns no name twice builds the same namespace in any
    order of its statements. *)
Lemma run_Permutation (body body' : list stmt) (g : gmap string value) :
  NoDup (assigned body) → body ≡ₚ body' → foldl exec g body' = foldl exec g body.
Proof.
  intros Hnd Hperm. revert g Hnd.
  induction Hperm as [|s l l' _ IH|s1 s2 l|l1 l2 l3 H12 IH1 _ IH2]; intros g Hnd.
  - reflexivity.
  - simpl. apply IH. destruct s; simpl in Hnd; [|exact Hnd].
    apply NoDup_cons in Hnd as [_ Hnd]. exact Hnd.
  - simpl. f_equal. apply exec_comm.
    intros n1 v1 n2 v2 -> ->. simpl in Hnd.
    apply NoDup_cons in Hnd as [Hnotin _].
    intros <-. apply Hnotin, list_elem_of_here.
  - rewrite IH2, IH1; [reflexivity|exact Hnd|].
    rewrite <- (assigned_Permutation _ _ H12). exact Hnd.
Qed.

(** X2: the six assignments are independent.  With the leading
    documentation string kept first (the one Python binds to [__doc__]), the
    other statements of the module, run in any order, build the same
    namespace. *)
Theorem globals_any_order (rest' : list stmt) :
  tail module_body ≡ₚ rest' → run (Doc :: rest') = globals.
Proof.
  intros Hperm. unfold globals, run.
  apply run_Permutation; [keys_NoDup|].
  change module_body with (Doc :: tail module_body).
  apply perm_skip, Hperm.
Qed.

Lemma globals_any_order_witness :
  run (Doc :: reverse (tail module_body)) = globals.
Proof.
  apply (globals_any_order (reverse (tail module_body))).
  symmetry. apply reverse_Permutation.
Defined.

(** A recipe string follows its bullets when its steps and the bullets pass
    the check label by label. *)
Lemma follows_decision_Str (recipe : string) (bullets : list string) :
  Forall2
    (fun step bullet =>
       step ∈ scaler_labels
       ∧ Forall (fun label => contains label bullet = true ↔ label = step)
           scaler_labels)
    (split_on " + " recipe) bullets →
  follows_decision (Str recipe) bullets.
Proof.
  simpl. intros Hall. eapply Forall2_impl; [exact Hall|].
  intros step bullet [Hstep Hlabels]. split; [exact Hstep|].
  apply Forall_forall, Hlabels.
Qed.

Lemma follows_decision_PHYSICAL_SCALING :
  follows_decision (Dict PHYSICAL_SCALING)
    [ "Temperature → StandardScaler";
      "Depth → MinMaxScaler (or StandardScaler depending on model)" ].
Proof.
  exists PHYSICAL_SCALING_items.
  split; [vm_compute; reflexivity|].
  split; [keys_NoDup|].
  split; [by_decision|].
  reflexivity.
Qed.

(** X3: each constant is the decision its documentation string records.  The
    documentation strings stand above the constants in the order of the
    assignments; a recipe string has one step for each bullet of the
    "Scaling Decision", in order, and that step is a scaler label and the
    only one the bullet contains; the dictionary is exactly the one its
    bullets spell out, each column with the first word after the arrow (for
    Depth the bullet goes on to name an alternative, the dictionary holds
    the scaler named first). *)
Theorem constants_follow_decisions :
  constant <$> report = assigned module_body
  ∧ ∀ doc, doc ∈ report →
      ∃ v, globals !! constant doc = Some v
        ∧ follows_decision v (scaling_decision doc).
Proof.
  split; [reflexivity|].
  intros doc Hin. unfold report in Hin.
  repeat (apply elem_of_cons in Hin as [->|Hin]);
    [ exists (Str PRESSURE_SCALING)
    | exists (Str ADSORPTION_SCALING)
    | exists (Dict PHYSICAL_SCALING)
    | exists (Str PROXIMATE_SCALING)
    | exists (Str MACERAL_SCALING)
    | exists (Str CORRELATION_SCALING)
    | apply elem_of_nil in Hin; destruct Hin ];
    (split; [vm_compute; reflexivity|]);
    first [ exact follows_decision_PHYSICAL_SCALING
          | apply follows_decision_Str; by_decision ].
Qed.

Lemma constants_follow_decisions_witness :
  ∃ v, globals !! "PHYSICAL_SCALING" = Some v
    ∧ follows_decision v
        [ "Temperature → StandardScaler";
          "Depth → MinMaxScaler (or StandardScaler depending on model)" ].
Proof.
  destruct constants_follow_decisions as [_ Hall].
  apply (Hall {| features := [ "Temperature (°C)"; "Depth (m)" ];
                 scaling_decision :=
                   [ "Temperature → StandardScaler";
                     "Depth → MinMaxScaler (or StandardScaler depending on model)" ];
                 constant := "PHYSICAL_SCALING" |}).
  apply (list_elem_of_lookup_2 _ 2). reflexivity.
Defined.

(** X4: a constant that is a dictionary has for keys exactly the columns its
    documentation string lists under "Features:", each named without its
    unit: no listed column is left without a scaler, and no key names a
    column of another group. *)
Theorem dictionary_columns_are_features (doc : GroupDoc) (d : gmap string string) :
  doc ∈ report → globals !! constant doc = Some (Dict d) →
  dom d = list_to_set (column_name <$> features doc).
Proof.
  intros Hin Hd. unfold report in Hin.
  repeat (apply elem_of_cons in Hin as [->|Hin]);
    [ .. | apply elem_of_nil in Hin; destruct Hin ];
    simpl in Hd; globals_cases Hd.
  vm_compute. reflexivity.
Qed.

Lemma dictionary_columns_are_features_witness :
  dom PHYSICAL_SCALING =
    list_to_set (column_name <$> [ "Temperature (°C)"; "Depth (m)" ]).
Proof.
  apply (dictionary_columns_are_features
           {| features := [ "Temperature (°C)"; "Depth (m)" ];
              scaling_decision :=
                [ "Temperature → StandardScaler";
                  "Depth → MinMaxScaler (or StandardScaler depending on model)" ];
              constant := "PHYSICAL_SCALING" |}).
  - apply (list_elem_of_lookup_2 _ 2). reflexivity.
  - vm_compute. reflexivity.
Defined.

(** X5: no column is listed under two groups, and none twice in its own:
    two places of the report, each a feature bullet of a documentation
    string, that name the same column are the same place. *)
Theorem column_in_one_group
    (i j k l : nat) (doc1 doc2 : GroupDoc) (f1 f2 : string) :
  report !! i = Some doc1 → report !! j = Some doc2 →
  features doc1 !! k = Some f1 → features doc2 !! l = Some f2 →
  column_name f1 = column_name f2 →
  i = j ∧ k = l.
Proof.
  intros Hi Hj Hk Hl. unfold report in Hi, Hj.
  destruct i as [|[|[|[|[|[|i]]]]]]; simplify_eq/=;
    destruct k as [|[|[|[|[|k]]]]]; simplify_eq/=;
    destruct j as [|[|[|[|[|[|j]]]]]]; simplify_eq/=;
    destruct l as [|[|[|[|[|l]]]]]; simplify_eq/=;
    intros Heq;
    first [ split; reflexivity | vm_compute in Heq; discriminate Heq ].
Qed.

Lemma column_in_one_group_witness :
  column_name "Depth (m)" = column_name "Depth (m)" ∧ (2 = 2 ∧ 1 = 1).
Proof.
  split; [reflexivity|].
  apply (column_in_one_group 2 2 1 1
           {| features := [ "Temperature (°C)"; "Depth (m)" ];
              scaling_decision :=
                [ "Temperature → StandardScaler";
                  "Depth → MinMaxScaler (or StandardScaler depending on model)" ];
              constant := "PHYSICAL_SCALING" |}
           {| features := [ "Temperature (°C)"; "Depth (m)" ];
              scaling_decision :=
                [ "Temperature → StandardScaler";
                  "Depth → MinMaxScaler (or StandardScaler depending on model)" ];
              constant := "PHYSICAL_SCALING" |}
           "Depth (m)" "Depth (m)"); reflexivity.
Defined.
